(** * github-repo-fetcher: the repository lookup of [fetcher/lambda_function.py]

    A shallow embedding of [get_public_repositories] and of the parts of
    Python it relies on: decoded JSON values, iteration, subscripting,
    exceptions, the list comprehension, the [requests] response object and
    the calls the function makes on the outside world (the HTTP GET, the
    decoding of the body and the log records), and of [main], the command
    line program around it (the prompt, the printed lines and its log). *)

From Stdlib Require Import ZArith List String Ascii Bool Lia DecimalString.
From Stdlib Require Import Floats.SpecFloat.
Import ListNotations.

Local Open Scope string_scope.
Local Open Scope list_scope.

#[local] Set Warnings "-register-all".

(** ** Python values and exceptions *)

Module Py.

(** What [json()] can hand back: [None], [bool], [int], [float], [str],
    [list] and [dict].  A [dict] keeps its insertion order, which is the
    order of iteration, so it is an association list; its keys are the
    strings of the JSON object.  A [str] is a sequence of characters, here
    the characters of [String.string]. *)
Inductive value : Type :=
| PyNone
| PyBool (b : bool)
| PyInt (n : Z)
| PyFloat (f : spec_float)
| PyStr (s : string)
| PyList (items : list value)
| PyDict (entries : list (string * value)).

(** The exceptions that can cross [get_public_repositories]. *)
Inductive exn : Type :=
| RequestException (what : string)
| JSONDecodeError (what : string)
| TypeError
| KeyError (key : string).

(** A computation that returns or raises. *)
Definition result (A : Type) : Type := (exn + A)%type.

Definition ok {A} (x : A) : result A := inr x.
Definition throw {A} (e : exn) : result A := inl e.

Definition rbind {A B} (c : result A) (k : A -> result B) : result B :=
  match c with
  | inl e => inl e
  | inr x => k x
  end.

(** [d[key]] on a dict: the value stored under [key], if any. *)
Fixpoint dict_get (key : string) (entries : list (string * value)) : option value :=
  match entries with
  | [] => None
  | (k, v) :: rest => if String.eqb k key then Some v else dict_get key rest
  end.

(** The one-character strings of a [str], in order. *)
Fixpoint chars (s : string) : list value :=
  match s with
  | EmptyString => []
  | String c rest => PyStr (String c EmptyString) :: chars rest
  end.

(** [iter(v)] run to exhaustion: a list yields its items, a dict its keys,
    a str its characters; the other values are not iterable. *)
Definition iterate (v : value) : result (list value) :=
  match v with
  | PyList items => ok items
  | PyDict entries => ok (map (fun kv => PyStr (fst kv)) entries)
  | PyStr s => ok (chars s)
  | PyNone | PyBool _ | PyInt _ | PyFloat _ => throw TypeError
  end.

(** [v[key]] for a [str] key: a dict looks the key up and raises
    [KeyError] when it is absent; a list or a str wants an integer index;
    the other values are not subscriptable. *)
Definition getitem (v : value) (key : string) : result value :=
  match v with
  | PyDict entries =>
      match dict_get key entries with
      | Some x => ok x
      | None => throw (KeyError key)
      end
  | PyList _ | PyStr _ => throw TypeError
  | PyNone | PyBool _ | PyInt _ | PyFloat _ => throw TypeError
  end.

(** [[f(x) for x in items]]: the elements are evaluated left to right and
    the first exception ends the comprehension. *)
Fixpoint comprehension (f : value -> result value) (items : list value)
  : result (list value) :=
  match items with
  | [] => ok []
  | x :: rest =>
      rbind (f x) (fun y =>
      rbind (comprehension f rest) (fun ys =>
      ok (y :: ys)))
  end.

(** [[f(x) for x in v]] over a value that may not be iterable. *)
Definition comprehension_over (f : value -> result value) (v : value)
  : result (list value) :=
  rbind (iterate v) (comprehension f).

(** [f"{n}"] for an [int]. *)
Definition format_int (n : Z) : string := NilZero.string_of_int (Z.to_int n).

(** [f"{s}"] for a value that is a [str] or [None]. *)
Definition format_opt (s : option string) : string :=
  match s with
  | Some x => x
  | None => "None"
  end.

Definition is_str (v : value) : bool :=
  match v with
  | PyStr _ => true
  | _ => false
  end.

End Py.

Import Py.

(** ** The response object of [requests] *)

Module Requests.

(** The attributes the function reads: [status_code], [reason], and what
    calling [json()] does (return the decoded body, or raise when the body
    is not JSON). *)
Record Response : Type := mkResponse {
  status_code : Z;
  reason : option string;
  json : result value
}.

(** [requests.get]: for a URL, a response, or an exception when no
    response was obtained (DNS failure, refused connection, timeout). *)
Definition Get : Type := string -> result Response.

End Requests.

Import Requests.

(** ** Calls on the outside world *)

Module Effects.

Inductive level : Type := INFO | ERROR.

(** What the function does that is visible from outside, in order. *)
Inductive event : Type :=
| EvLog (lvl : level) (msg : string)
| EvGet (url : string)
| EvJson.

Definition trace : Type := list event.

(** State passing over the trace of the process; the outcome is a return
    value or a raised exception, and the trace survives a raise. *)
Definition M (A : Type) : Type := trace -> trace * result A.

Definition ret {A} (x : A) : M A := fun t => (t, ok x).

Definition bind {A B} (c : M A) (k : A -> M B) : M B :=
  fun t =>
    match c t with
    | (t', inl e) => (t', inl e)
    | (t', inr x) => k x t'
    end.

Definition emit (e : event) : M unit := fun t => (t ++ [e], ok tt).

Definition lift {A} (r : result A) : M A := fun t => (t, r).

Declare Scope py_scope.
Delimit Scope py_scope with py.
Notation "x <- c ;; k" := (bind c (fun x => k))
  (at level 61, c at next level, right associativity) : py_scope.
Notation "c ;; k" := (bind c (fun _ => k))
  (at level 61, right associativity) : py_scope.

Definition logger_info (msg : string) : M unit := emit (EvLog INFO msg).
Definition logger_error (msg : string) : M unit := emit (EvLog ERROR msg).

(** [requests.get(url)]: one GET is recorded, then the client answers. *)
Definition requests_get (get : Get) (url : string) : M Response :=
  bind (emit (EvGet url)) (fun _ => lift (get url)).

(** [response.json()]: the decoding is recorded, then returns or raises. *)
Definition response_json (response : Response) : M value :=
  bind (emit EvJson) (fun _ => lift (json response)).

Definition outcome {A} (r : trace * result A) : result A := snd r.
Definition final_trace {A} (r : trace * result A) : trace := fst r.

Definition is_get (e : event) : bool :=
  match e with
  | EvGet _ => true
  | _ => false
  end.

Definition is_json (e : event) : bool :=
  match e with
  | EvJson => true
  | _ => false
  end.

(** The URLs of the GET requests of a trace, in order. *)
Fixpoint gets (t : trace) : list string :=
  match t with
  | [] => []
  | EvGet url :: rest => url :: gets rest
  | _ :: rest => gets rest
  end.

(** How often the body was decoded in a trace. *)
Definition decodes (t : trace) : nat := List.length (filter is_json t).

End Effects.

Import Effects.

(** ** The fetcher *)

Module Fetcher.

Local Open Scope py_scope.

(** [f"https://api.github.com/users/{username}/repos"] *)
Definition repos_url (username : string) : string :=
  "https://api.github.com/users/" ++ username ++ "/repos".

(** [get_public_repositories(username)], with [requests.get] as [get]. *)
Definition get_public_repositories (get : Get) (username : string)
  : M (list value) :=
  let url := repos_url username in
  logger_info ("Attempting to fetch public repositories for user: " ++ username) ;;
  response <- requests_get get url ;;
  logger_info ("API request made to URL: " ++ url
               ++ " with response status code: "
               ++ format_int (status_code response)) ;;
  if (status_code response =? 200)%Z then
    logger_info ("Successfully fetched data for user: " ++ username) ;;
    repos <- response_json response ;;
    lift (comprehension_over (fun repo => getitem repo "name") repos)
  else
    logger_error ("Failed to fetch repositories. HTTP Status Code: "
                  ++ format_int (status_code response)
                  ++ ", Reason: " ++ format_opt (reason response)) ;;
    ret [].

End Fetcher.

Import Fetcher.

(** ** The scenarios of the test suite *)

Module Scenarios.

Definition repo (name : string) : value := PyDict [("name", PyStr name)].

(** [test_get_public_repositories_success] *)
Definition mock_success : Get :=
  fun _ => ok (mkResponse 200 None (ok (PyList [repo "repo1"; repo "repo2"; repo "repo3"]))).

(** [test_get_public_repositories_no_repos] *)
Definition mock_no_repos : Get :=
  fun _ => ok (mkResponse 200 None (ok (PyList []))).

(** [test_get_public_repositories_error] *)
Definition mock_error : Get :=
  fun _ => ok (mkResponse 404 (Some "Not Found") (ok (PyDict []))).

End Scenarios.

Import Scenarios.

(** ** Vocabulary of the properties *)

Module Props.

(** Structural equality of decoded values (so [1], [1.0] and [True] differ). *)
Definition float_eqb (x y : spec_float) : bool :=
  match x, y with
  | S754_zero a, S754_zero b => Bool.eqb a b
  | S754_infinity a, S754_infinity b => Bool.eqb a b
  | S754_nan, S754_nan => true
  | S754_finite a m e, S754_finite b n f =>
      Bool.eqb a b && Pos.eqb m n && Z.eqb e f
  | _, _ => false
  end.

Fixpoint value_eqb (a b : value) {struct a} : bool :=
  match a, b with
  | PyNone, PyNone => true
  | PyBool x, PyBool y => Bool.eqb x y
  | PyInt x, PyInt y => Z.eqb x y
  | PyFloat x, PyFloat y => float_eqb x y
  | PyStr x, PyStr y => String.eqb x y
  | PyList xs, PyList ys =>
      (fix go (xs ys : list value) {struct xs} : bool :=
         match xs, ys with
         | [], [] => true
         | x :: xs', y :: ys' => value_eqb x y && go xs' ys'
         | _, _ => false
         end) xs ys
  | PyDict xs, PyDict ys =>
      (fix go (xs ys : list (string * value)) {struct xs} : bool :=
         match xs, ys with
         | [], [] => true
         | (k, x) :: xs', (k', y) :: ys' =>
             String.eqb k k' && value_eqb x y && go xs' ys'
         | _, _ => false
         end) xs ys
  | _, _ => false
  end.

(** A JSON object that has a [name] field. *)
Definition has_name (v : value) : bool :=
  match v with
  | PyDict entries =>
      match dict_get "name" entries with
      | Some _ => true
      | None => false
      end
  | _ => false
  end.

(** A JSON array of objects each having a [name] field. *)
Definition is_repo_array (v : value) : bool :=
  match v with
  | PyList items => forallb has_name items
  | _ => false
  end.

(** The object [d] has the value [n] under [name]. *)
Definition name_is (d : list (string * value)) (n : value) : Prop :=
  dict_get "name" d = Some n.

(** Two objects agree on the [name] field. *)
Definition same_name (d1 d2 : list (string * value)) : Prop :=
  dict_get "name" d1 = dict_get "name" d2.

(** How often [n] occurs in a list of values. *)
Definition occurrences (n : value) (l : list value) : nat :=
  List.length (filter (value_eqb n) l).

(** How many objects of an array have [n] under [name]. *)
Definition named_count (n : value) (objs : list (list (string * value))) : nat :=
  List.length
    (filter (fun d => match dict_get "name" d with
                      | Some x => value_eqb n x
                      | None => false
                      end) objs).

(** A computation that ends in an exception. *)
Definition raises {A} (r : result A) : Prop := exists e, r = throw e.

(** A body of a 200 response on which the function raises: it is not
    JSON, or it decodes to something that is neither an array of objects
    each having a [name] nor an empty object nor an empty string. *)
Definition unusable_body (body : result value) : Prop :=
  match body with
  | inl _ => True
  | inr v => is_repo_array v = false /\ v <> PyDict [] /\ v <> PyStr ""
  end.

(** The log records and calls of the three paths of the function. *)
Definition log_attempt (username : string) : event :=
  EvLog INFO ("Attempting to fetch public repositories for user: " ++ username).

Definition log_request (username : string) (status : Z) : event :=
  EvLog INFO ("API request made to URL: " ++ repos_url username
              ++ " with response status code: " ++ format_int status).

Definition log_success (username : string) : event :=
  EvLog INFO ("Successfully fetched data for user: " ++ username).

Definition log_failure (status : Z) (why : option string) : event :=
  EvLog ERROR ("Failed to fetch repositories. HTTP Status Code: "
               ++ format_int status ++ ", Reason: " ++ format_opt why).

End Props.

Import Props.

(** ** The command line program *)

Module Cli.

(** What shows on the console: the prompt of [input] and the lines of
    [print]. *)
Inductive console_event : Type :=
| Prompted (prompt : string)
| Printed (line : string).

(** What can end [main]: [input] at the end of the standard input, or an
    exception of the fetcher. *)
Inductive failure : Type :=
| EOFError
| Raised (e : exn).

(** The process: the lines still to be read from the standard input, the
    console so far and the log so far. *)
Record process : Type := mkProcess {
  stdin : list string;
  console : list console_event;
  log : trace
}.

Definition IO (A : Type) : Type := process -> process * (failure + A).

Definition io_ret {A} (x : A) : IO A := fun p => (p, inr x).

Definition io_bind {A B} (c : IO A) (k : A -> IO B) : IO B :=
  fun p =>
    match c p with
    | (p', inl e) => (p', inl e)
    | (p', inr x) => k x p'
    end.

Declare Scope io_scope.
Delimit Scope io_scope with io.
Notation "x <- c ;; k" := (io_bind c (fun x => k))
  (at level 61, c at next level, right associativity) : io_scope.
Notation "c ;; k" := (io_bind c (fun _ => k))
  (at level 61, right associativity) : io_scope.

(** [input(prompt)]: the prompt is shown, then one line is read; at the end
    of the input [EOFError] is raised. *)
Definition input (prompt : string) : IO string :=
  fun p =>
    let shown := console p ++ [Prompted prompt] in
    match stdin p with
    | [] => (mkProcess [] shown (log p), inl EOFError)
    | line :: rest => (mkProcess rest shown (log p), inr line)
    end.

(** [print(line)] *)
Definition print (line : string) : IO unit :=
  fun p => (mkProcess (stdin p) (console p ++ [Printed line]) (log p), inr tt).

(** A computation of the fetcher's layer, run on the log of the process. *)
Definition on_log {A} (c : M A) : IO A :=
  fun p =>
    match c (log p) with
    | (t, inl e) => (mkProcess (stdin p) (console p) t, inl (Raised e))
    | (t, inr x) => (mkProcess (stdin p) (console p) t, inr x)
    end.

(** [for x in items: body(x)] *)
Fixpoint for_each {A} (body : A -> IO unit) (items : list A) : IO unit :=
  match items with
  | [] => io_ret tt
  | x :: rest => io_bind (body x) (fun _ => for_each body rest)
  end.

(** [if repos:] on a list. *)
Definition truthy {A} (l : list A) : bool :=
  match l with
  | [] => false
  | _ :: _ => true
  end.

Section Main.

(** [repr] of Python, which the f-strings apply to a list and to values
    that are not strings; it is a builtin, taken as given. *)
Variable repr : value -> string.

(** [f"{v}"]: a [str] is inserted as it is, anything else through [repr]. *)
Definition format_value (v : value) : string :=
  match v with
  | PyStr s => s
  | _ => repr v
  end.

Local Open Scope io_scope.

(** [main()], with [requests.get] as [get]. *)
Definition main (get : Get) : IO unit :=
  username <- input "Enter the GitHub username: " ;;
  on_log (logger_info ("User entered GitHub username: " ++ username)) ;;
  repos <- on_log (get_public_repositories get username) ;;
  on_log (logger_info ("Repositories retrieved: " ++ repr (PyList repos))) ;;
  if truthy repos then
    print ("Public repositories of " ++ username ++ ":") ;;
    on_log (logger_info ("Public repositories of " ++ username ++ ":")) ;;
    for_each (fun repo =>
                print ("- " ++ format_value repo) ;;
                on_log (logger_info ("- " ++ format_value repo)))
             repos
  else
    print "No public repositories found or an error occurred." ;;
    on_log (logger_info "No public repositories found or an error occurred.").

End Main.

Definition io_outcome {A} (r : process * (failure + A)) : failure + A := snd r.
Definition final {A} (r : process * (failure + A)) : process := fst r.

(** The log when the fetcher is called from [main] for [username]. *)
Definition log_entered (p : process) (username : string) : trace :=
  log p ++ [EvLog INFO ("User entered GitHub username: " ++ username)].

Definition is_error (e : event) : bool :=
  match e with
  | EvLog ERROR _ => true
  | _ => false
  end.

(** How many records of level ERROR a trace has. *)
Definition errors (t : trace) : nat := List.length (filter is_error t).

(** The line of a repository on the console. *)
Definition repo_line (repr : value -> string) (v : value) : string :=
  "- " ++ format_value repr v.

Definition no_repos_line : string :=
  "No public repositories found or an error occurred.".

Definition prompt_line : string := "Enter the GitHub username: ".

Definition header_line (username : string) : string :=
  "Public repositories of " ++ username ++ ":".

(** The lines [main] prints for the list the fetcher returned. *)
Definition printed_lines (repr : value -> string) (username : string)
    (repos : list value) : list string :=
  if truthy repos
  then header_line username :: map (repo_line repr) repos
  else [no_repos_line].

(** What the fetcher appends to the trace for a given answer of the client. *)
Definition fetch_events (username : string) (answer : result Response) : trace :=
  match answer with
  | inl _ => [log_attempt username; EvGet (repos_url username)]
  | inr response =>
      if (status_code response =? 200)%Z
      then [log_attempt username; EvGet (repos_url username);
            log_request username 200; log_success username; EvJson]
      else [log_attempt username; EvGet (repos_url username);
            log_request username (status_code response);
            log_failure (status_code response) (reason response)]
  end.

End Cli.

Import Cli.

(** * Properties *)

Example test_get_public_repositories_success :
  outcome (get_public_repositories mock_success "testuser" [])
  = ok [PyStr "repo1"; PyStr "repo2"; PyStr "repo3"].
Proof. reflexivity. Qed.

Example test_get_public_repositories_no_repos :
  outcome (get_public_repositories mock_no_repos "testuser" []) = ok [].
Proof. reflexivity. Qed.

Example test_get_public_repositories_error :
  outcome (get_public_repositories mock_error "nonexistentuser" []) = ok [].
Proof. reflexivity. Qed.

Example test_error_trace :
  final_trace (get_public_repositories mock_error "nonexistentuser" [])
  = [ EvLog INFO "Attempting to fetch public repositories for user: nonexistentuser";
      EvGet "https://api.github.com/users/nonexistentuser/repos";
      EvLog INFO "API request made to URL: https://api.github.com/users/nonexistentuser/repos with response status code: 404";
      EvLog ERROR "Failed to fetch repositories. HTTP Status Code: 404, Reason: Not Found" ].
Proof. reflexivity. Qed.

(** ** The three paths of the function *)

Section Paths.

Variable get : Get.
Variable username : string.
Variable t : trace.

Lemma path_transport_failure (e : exn) :
  get (repos_url username) = throw e ->
  get_public_repositories get username t
  = (t ++ [log_attempt username; EvGet (repos_url username)], throw e).
Proof.
  intros Hget.
  unfold get_public_repositories, requests_get, logger_info, bind, emit, lift.
  rewrite Hget. cbn. rewrite <- app_assoc. reflexivity.
Qed.

Lemma path_not_200 (response : Response) :
  get (repos_url username) = ok response ->
  status_code response <> 200%Z ->
  get_public_repositories get username t
  = (t ++ [log_attempt username; EvGet (repos_url username);
           log_request username (status_code response);
           log_failure (status_code response) (reason response)],
     ok []).
Proof.
  intros Hget Hstatus.
  apply Z.eqb_neq in Hstatus.
  unfold get_public_repositories, requests_get, logger_info, logger_error,
    bind, emit, lift, ret.
  rewrite Hget. cbn. rewrite Hstatus. cbn.
  repeat rewrite <- app_assoc. reflexivity.
Qed.

Lemma path_200 (response : Response) :
  get (repos_url username) = ok response ->
  status_code response = 200%Z ->
  get_public_repositories get username t
  = (t ++ [log_attempt username; EvGet (repos_url username);
           log_request username 200; log_success username; EvJson],
     rbind (json response)
           (comprehension_over (fun repo => getitem repo "name"))).
Proof.
  intros Hget Hstatus.
  unfold get_public_repositories, requests_get, response_json, logger_info,
    bind, emit, lift.
  rewrite Hget. cbn. rewrite Hstatus. cbn.
  repeat rewrite <- app_assoc. cbn.
  destruct (json response); reflexivity.
Qed.

End Paths.

(** ** The comprehension over an array of objects *)

Section Comprehension.

Let project : value -> result value := fun repo => getitem repo "name".

(** Objects that all have a name are projected to their names, in order. *)
Lemma comprehension_names objs names :
  Forall2 name_is objs names ->
  comprehension project (map PyDict objs) = ok names.
Proof.
  induction 1 as [| d n objs names Hd _ IH]; cbn.
  - reflexivity.
  - unfold name_is in Hd. rewrite Hd. cbn.
    fold project. rewrite IH. reflexivity.
Qed.

(** The comprehension over objects only looks at the [name] fields. *)
Lemma comprehension_same_names objs1 objs2 :
  Forall2 same_name objs1 objs2 ->
  comprehension project (map PyDict objs1)
  = comprehension project (map PyDict objs2).
Proof.
  induction 1 as [| d1 d2 objs1 objs2 Hd _ IH]; cbn.
  - reflexivity.
  - unfold same_name in Hd. rewrite Hd. fold project. rewrite IH. reflexivity.
Qed.

(** One element that is not an object with a name makes it raise. *)
Lemma comprehension_raises items :
  forallb has_name items = false ->
  exists e, comprehension project items = throw e.
Proof.
  induction items as [| v items IH]; cbn; intros Hall.
  - discriminate.
  - apply andb_false_iff in Hall.
    destruct (project v) as [e | n] eqn:Hv; cbn.
    + exists e. reflexivity.
    + destruct Hall as [Hhead | Htail].
      * exfalso. unfold project, getitem in Hv. unfold has_name in Hhead.
        destruct v; try discriminate.
        destruct (dict_get "name" entries); discriminate.
      * destruct (IH Htail) as [e He]. fold project. rewrite He.
        exists e. reflexivity.
Qed.

(** Every element that is an object with a name makes it return. *)
Lemma comprehension_returns items :
  forallb has_name items = true ->
  exists names, comprehension project items = ok names
                /\ List.length names = List.length items.
Proof.
  induction items as [| v items IH]; cbn; intros Hall.
  - exists []. split; reflexivity.
  - apply andb_true_iff in Hall. destruct Hall as [Hhead Htail].
    destruct (IH Htail) as [names [Hnames Hlen]].
    unfold has_name in Hhead. destruct v; try discriminate.
    unfold project at 1. cbn.
    destruct (dict_get "name" entries) as [n |]; try discriminate. cbn.
    fold project. rewrite Hnames. cbn.
    exists (n :: names). split; [reflexivity | cbn; congruence].
Qed.

(** The keys of an object and the characters of a string are strings, and
    a string cannot be subscripted with ["name"]. *)
Lemma comprehension_keys_raise (kv : string * value) entries :
  comprehension project (map (fun kv => PyStr (fst kv)) (kv :: entries))
  = throw TypeError.
Proof. reflexivity. Qed.

Lemma comprehension_chars_raise c s :
  comprehension project (chars (String c s)) = throw TypeError.
Proof. reflexivity. Qed.

End Comprehension.

(** The values whose iteration yields nothing. *)
Lemma iterate_empty v :
  iterate v = ok [] <-> v = PyList [] \/ v = PyDict [] \/ v = PyStr "".
Proof.
  split.
  - destruct v as [| | | | s | items | entries]; cbn; try discriminate.
    + destruct s; cbn; [auto | discriminate].
    + intros H. injection H as ->. auto.
    + destruct entries; cbn; [auto | discriminate].
  - intros [-> | [-> | ->]]; reflexivity.
Qed.

(** ** Traces *)

Lemma decodes_app (t evs : trace) : decodes (t ++ evs) = decodes t + decodes evs.
Proof.
  unfold decodes. rewrite filter_app, length_app. reflexivity.
Qed.

(** ** Structural equality decides equality *)

Lemma float_eqb_eq x y : float_eqb x y = true <-> x = y.
Proof.
  split.
  - destruct x, y; cbn; try discriminate; intros H.
    + apply Bool.eqb_prop in H. congruence.
    + apply Bool.eqb_prop in H. congruence.
    + reflexivity.
    + apply andb_true_iff in H. destruct H as [H He].
      apply andb_true_iff in H. destruct H as [Hs Hm].
      apply Bool.eqb_prop in Hs. apply Pos.eqb_eq in Hm. apply Z.eqb_eq in He.
      congruence.
  - intros <-. destruct x; cbn.
    + apply Bool.eqb_reflx.
    + apply Bool.eqb_reflx.
    + reflexivity.
    + rewrite Bool.eqb_reflx, Pos.eqb_refl, Z.eqb_refl. reflexivity.
Qed.

(** Counting through a projection. *)
Lemma occurrences_names n objs names :
  Forall2 name_is objs names ->
  occurrences n names = named_count n objs.
Proof.
  unfold occurrences, named_count.
  induction 1 as [| d x objs names Hd _ IH]; cbn.
  - reflexivity.
  - unfold name_is in Hd. rewrite Hd.
    destruct (value_eqb n x); cbn; congruence.
Qed.

Lemma value_eqb_true : forall a b, value_eqb a b = true -> a = b.
Proof.
  fix IH 1.
  intros a b; destruct a as [| x | x | x | x | xs | xs], b as [| y | y | y | y | ys | ys];
    cbn; try discriminate; intros H.
  - reflexivity.
  - apply Bool.eqb_prop in H. congruence.
  - apply Z.eqb_eq in H. congruence.
  - apply float_eqb_eq in H. congruence.
  - apply String.eqb_eq in H. congruence.
  - f_equal. revert ys H.
    induction xs as [| x xs IHxs]; intros [| y ys] H; try discriminate.
    + reflexivity.
    + apply andb_true_iff in H. destruct H as [Hx Hxs].
      f_equal; [apply IH; exact Hx | apply IHxs; exact Hxs].
  - f_equal. revert ys H.
    induction xs as [| [k x] xs IHxs]; intros [| [k' y] ys] H; try discriminate.
    + reflexivity.
    + apply andb_true_iff in H. destruct H as [H Hxs].
      apply andb_true_iff in H. destruct H as [Hk Hx].
      apply String.eqb_eq in Hk.
      f_equal; [f_equal; [exact Hk | apply IH; exact Hx] | apply IHxs; exact Hxs].
Qed.

Lemma value_eqb_refl : forall a, value_eqb a a = true.
Proof.
  fix IH 1.
  intros a; destruct a as [| x | x | x | x | xs | xs]; cbn.
  - reflexivity.
  - apply Bool.eqb_reflx.
  - apply Z.eqb_refl.
  - apply float_eqb_eq. reflexivity.
  - apply String.eqb_refl.
  - induction xs as [| x xs IHxs]; [reflexivity |].
    rewrite IH. exact IHxs.
  - induction xs as [| [k x] xs IHxs]; [reflexivity |].
    rewrite String.eqb_refl, IH. exact IHxs.
Qed.

Lemma value_eqb_eq a b : value_eqb a b = true <-> a = b.
Proof.
  split; [apply value_eqb_true | intros <-; apply value_eqb_refl].
Qed.

(** ** More on the comprehension *)

(** What the comprehension returns over objects are their names. *)
Lemma comprehension_inv objs : forall names,
  comprehension (fun repo => getitem repo "name") (map PyDict objs) = ok names ->
  Forall2 name_is objs names.
Proof.
  induction objs as [| d objs IH]; cbn; intros names H.
  - injection H as <-. constructor.
  - destruct (dict_get "name" d) as [n |] eqn:Hd; cbn in H; [| discriminate].
    destruct (comprehension _ (map PyDict objs)) as [e | ns]; cbn in H;
      [discriminate |].
    injection H as <-. constructor; [exact Hd | apply IH; reflexivity].
Qed.

(** The name of the i-th object is the i-th element of the result. *)
Lemma comprehension_nth items : forall names i d v,
  comprehension (fun repo => getitem repo "name") items = ok names ->
  nth_error items i = Some (PyDict d) ->
  name_is d v ->
  nth_error names i = Some v.
Proof.
  induction items as [| x items IH]; intros names i d v H Hi Hd.
  - destruct i; discriminate.
  - cbn in H.
    destruct (getitem x "name") as [e | n] eqn:Hx; cbn in H; [discriminate |].
    destruct (comprehension _ items) as [e | ns] eqn:Hrest; cbn in H;
      [discriminate |].
    injection H as <-.
    destruct i as [| i]; cbn in Hi |- *.
    + injection Hi as ->. unfold name_is in Hd. cbn in Hx. rewrite Hd in Hx.
      unfold ok in Hx. congruence.
    + eapply IH; eauto.
Qed.

(** * The claims *)

(** C1: for a 200 response whose JSON body is an array of N objects each
    having a [name] field, [get_public_repositories] returns the list of
    those N name values in the order of the array; for the empty array
    (N = 0) it returns the empty list. *)
Theorem returns_names_in_order
    (get : Get) (username : string) (t : trace) (response : Response)
    (objs : list (list (string * value))) (names : list value) :
  get (repos_url username) = ok response ->
  status_code response = 200%Z ->
  json response = ok (PyList (map PyDict objs)) ->
  Forall2 name_is objs names ->
  outcome (get_public_repositories get username t) = ok names
  /\ List.length names = List.length objs
  /\ (objs = [] -> outcome (get_public_repositories get username t) = ok []).
Proof.
  intros Hget Hstatus Hjson Hnames.
  rewrite (path_200 get username t response Hget Hstatus), Hjson.
  cbn. rewrite (comprehension_names objs names Hnames).
  split; [reflexivity | split].
  - symmetry. eapply Forall2_length; eauto.
  - intros ->. inversion Hnames. reflexivity.
Qed.

Lemma returns_names_in_order_witness :
  outcome (get_public_repositories mock_success "testuser" [])
  = ok [PyStr "repo1"; PyStr "repo2"; PyStr "repo3"]
  /\ List.length [PyStr "repo1"; PyStr "repo2"; PyStr "repo3"] = 3
  /\ ([[("name", PyStr "repo1")]; [("name", PyStr "repo2")];
       [("name", PyStr "repo3")]] = [] ->
      outcome (get_public_repositories mock_success "testuser" []) = ok []).
Proof.
  apply (returns_names_in_order mock_success "testuser" []
           (mkResponse 200 None
              (ok (PyList [repo "repo1"; repo "repo2"; repo "repo3"])))
           [[("name", PyStr "repo1")]; [("name", PyStr "repo2")];
            [("name", PyStr "repo3")]]
           [PyStr "repo1"; PyStr "repo2"; PyStr "repo3"]).
  - reflexivity.
  - reflexivity.
  - reflexivity.
  - repeat constructor.
Defined.

(** C2: for a response whose status code is not exactly 200,
    [get_public_repositories] returns the empty list and raises nothing,
    whatever the body is (also a body that is not JSON), and the body is not
    decoded. *)
Theorem not_200_returns_empty
    (get : Get) (username : string) (t : trace)
    (status : Z) (why : option string) (body : result value) :
  get (repos_url username) = ok (mkResponse status why body) ->
  status <> 200%Z ->
  outcome (get_public_repositories get username t) = ok []
  /\ decodes (final_trace (get_public_repositories get username t)) = decodes t.
Proof.
  intros Hget Hstatus.
  rewrite (path_not_200 get username t _ Hget Hstatus).
  split; [reflexivity |].
  unfold final_trace. cbn [fst]. rewrite decodes_app. cbn. lia.
Qed.

Lemma not_200_returns_empty_witness :
  let get : Get :=
    fun _ => ok (mkResponse 500 (Some "Internal Server Error")
                   (throw (JSONDecodeError "Expecting value"))) in
  outcome (get_public_repositories get "octocat" [EvJson]) = ok []
  /\ decodes (final_trace (get_public_repositories get "octocat" [EvJson])) = 1.
Proof.
  intros get.
  apply (not_200_returns_empty get "octocat" [EvJson] 500
           (Some "Internal Server Error")
           (throw (JSONDecodeError "Expecting value"))).
  - reflexivity.
  - lia.
Defined.

(** C3 (as stated it fails): a 200 response whose body is the empty JSON
    object is not an array of objects having a [name], and the function
    returns the empty list instead of raising. *)
Lemma empty_object_body_does_not_raise :
  let get : Get := fun _ => ok (mkResponse 200 (Some "OK") (ok (PyDict []))) in
  is_repo_array (PyDict []) = false
  /\ outcome (get_public_repositories get "octocat" []) = ok []
  /\ ~ raises (outcome (get_public_repositories get "octocat" [])).
Proof.
  intros get. split; [reflexivity | split; [reflexivity |]].
  intros [e He]. discriminate He.
Qed.

(** C3 (amended): for a 200 response whose body is not JSON, or decodes to a
    value that is neither an array of objects each having a [name] field nor
    an empty object nor an empty string, [get_public_repositories] raises
    instead of returning a list; when the decoding itself raises, that
    exception is the one the caller gets. *)
Theorem unusable_body_raises
    (get : Get) (username : string) (t : trace) (response : Response) :
  get (repos_url username) = ok response ->
  status_code response = 200%Z ->
  unusable_body (json response) ->
  raises (outcome (get_public_repositories get username t))
  /\ (forall e, json response = throw e ->
                outcome (get_public_repositories get username t) = throw e).
Proof.
  intros Hget Hstatus Hbody.
  rewrite (path_200 get username t response Hget Hstatus).
  unfold outcome. cbn [snd].
  split.
  - destruct (json response) as [e | v]; cbn.
    + exists e. reflexivity.
    + destruct Hbody as [Harr [Hobj Hstr]].
      destruct v as [| b | n | f | s | items | entries];
        try (exists TypeError; reflexivity).
      * destruct s as [| c s]; [congruence |].
        exists TypeError. reflexivity.
      * apply comprehension_raises. exact Harr.
      * destruct entries as [| kv entries]; [congruence |].
        exists TypeError. reflexivity.
  - intros e ->. reflexivity.
Qed.

Lemma unusable_body_raises_witness :
  let get : Get :=
    fun _ => ok (mkResponse 200 (Some "OK")
                   (ok (PyList [repo "a"; PyDict [("id", PyInt 7)]]))) in
  raises (outcome (get_public_repositories get "octocat" []))
  /\ (forall e, ok (PyList [repo "a"; PyDict [("id", PyInt 7)]]) = throw e ->
                outcome (get_public_repositories get "octocat" []) = throw e).
Proof.
  intros get.
  apply (unusable_body_raises get "octocat" []
           (mkResponse 200 (Some "OK")
              (ok (PyList [repo "a"; PyDict [("id", PyInt 7)]])))).
  - reflexivity.
  - reflexivity.
  - cbn. repeat split; discriminate.
Defined.

(** C4: when the HTTP client raises instead of returning a response,
    [get_public_repositories] does not catch the exception: the caller gets
    that exception, not an empty list. *)
Theorem transport_failure_propagates
    (get : Get) (username : string) (t : trace) (e : exn) :
  get (repos_url username) = throw e ->
  outcome (get_public_repositories get username t) = throw e
  /\ outcome (get_public_repositories get username t) <> ok [].
Proof.
  intros Hget.
  rewrite (path_transport_failure get username t e Hget).
  split; [reflexivity | discriminate].
Qed.

Lemma transport_failure_propagates_witness :
  let get : Get := fun _ => throw (RequestException "ConnectionError") in
  outcome (get_public_repositories get "octocat" [])
  = throw (RequestException "ConnectionError")
  /\ outcome (get_public_repositories get "octocat" []) <> ok [].
Proof.
  intros get.
  apply (transport_failure_propagates get "octocat" []
           (RequestException "ConnectionError")).
  reflexivity.
Defined.

(** C5: for every username, the URL that [get_public_repositories] requests
    is ["https://api.github.com/users/"] followed by the username as it is
    and by ["/repos"]: nothing is encoded or changed, also for an empty
    username or one with reserved characters. *)
Theorem request_url_is_plain_interpolation
    (get : Get) (username : string) (t : trace) :
  exists evs,
    final_trace (get_public_repositories get username t) = t ++ evs
    /\ gets evs = [("https://api.github.com/users/" ++ username ++ "/repos")%string].
Proof.
  destruct (get (repos_url username)) as [e | response] eqn:Hget.
  - rewrite (path_transport_failure get username t e Hget).
    eexists. split; reflexivity.
  - destruct (Z.eq_dec (status_code response) 200) as [Hstatus | Hstatus].
    + rewrite (path_200 get username t response Hget Hstatus).
      eexists. split; reflexivity.
    + rewrite (path_not_200 get username t response Hget Hstatus).
      eexists. split; reflexivity.
Qed.

Example request_url_empty_username :
  gets (final_trace (get_public_repositories mock_error "" []))
  = ["https://api.github.com/users//repos"].
Proof. reflexivity. Qed.

Example request_url_reserved_characters :
  gets (final_trace (get_public_repositories mock_error "a b/../c?d=e#f%" []))
  = ["https://api.github.com/users/a b/../c?d=e#f%/repos"].
Proof. reflexivity. Qed.

(** C6: every invocation of [get_public_repositories] performs exactly one
    HTTP GET, whatever the client answers or raises: never none, never a
    second one. *)
Theorem exactly_one_get (get : Get) (username : string) (t : trace) :
  exists evs,
    final_trace (get_public_repositories get username t) = t ++ evs
    /\ List.length (filter is_get evs) = 1.
Proof.
  destruct (get (repos_url username)) as [e | response] eqn:Hget.
  - rewrite (path_transport_failure get username t e Hget).
    eexists. split; reflexivity.
  - destruct (Z.eq_dec (status_code response) 200) as [Hstatus | Hstatus].
    + rewrite (path_200 get username t response Hget Hstatus).
      eexists. split; reflexivity.
    + rewrite (path_not_200 get username t response Hget Hstatus).
      eexists. split; reflexivity.
Qed.

(** C7: two invocations with the same username whose upstream answers alike
    for the URL of that username end alike (same returned list or same
    exception), whatever happened in the process before either of them. *)
Theorem same_upstream_same_result
    (get1 get2 : Get) (username : string) (t1 t2 : trace) :
  get1 (repos_url username) = get2 (repos_url username) ->
  outcome (get_public_repositories get1 username t1)
  = outcome (get_public_repositories get2 username t2).
Proof.
  intros Hsame.
  destruct (get2 (repos_url username)) as [e | response] eqn:Hget2.
  - rewrite (path_transport_failure get1 username t1 e Hsame).
    rewrite (path_transport_failure get2 username t2 e Hget2).
    reflexivity.
  - destruct (Z.eq_dec (status_code response) 200) as [Hstatus | Hstatus].
    + rewrite (path_200 get1 username t1 response Hsame Hstatus).
      rewrite (path_200 get2 username t2 response Hget2 Hstatus).
      reflexivity.
    + rewrite (path_not_200 get1 username t1 response Hsame Hstatus).
      rewrite (path_not_200 get2 username t2 response Hget2 Hstatus).
      reflexivity.
Qed.

Lemma same_upstream_same_result_witness :
  outcome (get_public_repositories mock_success "testuser" [])
  = outcome (get_public_repositories
               (fun url =>
                  if String.eqb url "https://api.github.com/users/testuser/repos"
                  then mock_success url
                  else throw (RequestException "Timeout"))
               "testuser"
               (final_trace (get_public_repositories mock_success "testuser" []))).
Proof.
  apply (same_upstream_same_result mock_success
           (fun url =>
              if String.eqb url "https://api.github.com/users/testuser/repos"
              then mock_success url
              else throw (RequestException "Timeout"))
           "testuser" []
           (final_trace (get_public_repositories mock_success "testuser" []))).
  reflexivity.
Defined.

(** C8: on a 200 response whose body is an array of objects, the result
    depends only on the [name] fields: two such responses whose elements
    agree one by one on [name] give the same result, whatever else differs;
    and when every element has a [name], both runs return exactly the list
    of those name values, in which every value occurs as often as it is the
    [name] of an element of the array, so duplicates are kept. *)
Theorem result_depends_on_names_only
    (get1 get2 : Get) (username1 username2 : string) (t1 t2 : trace)
    (response1 response2 : Response)
    (objs1 objs2 : list (list (string * value))) :
  get1 (repos_url username1) = ok response1 ->
  get2 (repos_url username2) = ok response2 ->
  status_code response1 = 200%Z ->
  status_code response2 = 200%Z ->
  json response1 = ok (PyList (map PyDict objs1)) ->
  json response2 = ok (PyList (map PyDict objs2)) ->
  Forall2 same_name objs1 objs2 ->
  outcome (get_public_repositories get1 username1 t1)
  = outcome (get_public_repositories get2 username2 t2)
  /\ (forall names,
        Forall2 name_is objs1 names ->
        outcome (get_public_repositories get1 username1 t1) = ok names
        /\ outcome (get_public_repositories get2 username2 t2) = ok names
        /\ List.length names = List.length objs1
        /\ (forall n, occurrences n names = named_count n objs1)).
Proof.
  intros Hget1 Hget2 Hstatus1 Hstatus2 Hjson1 Hjson2 Hsame.
  rewrite (path_200 get1 username1 t1 response1 Hget1 Hstatus1), Hjson1.
  rewrite (path_200 get2 username2 t2 response2 Hget2 Hstatus2), Hjson2.
  unfold outcome. cbn.
  split.
  - apply comprehension_same_names. exact Hsame.
  - intros names Hnames.
    rewrite <- (comprehension_same_names objs1 objs2 Hsame).
    rewrite (comprehension_names objs1 names Hnames).
    repeat split.
    + symmetry. eapply Forall2_length; eauto.
    + intros n. apply occurrences_names. exact Hnames.
Qed.

Lemma result_depends_on_names_only_witness :
  let body1 := [[("name", PyStr "a"); ("id", PyInt 1)];
                [("name", PyStr "a"); ("fork", PyBool true)];
                [("name", PyStr "b")]] in
  let body2 := [[("name", PyStr "a")];
                [("private", PyBool false); ("name", PyStr "a")];
                [("name", PyStr "b"); ("size", PyInt 0)]] in
  let get1 : Get :=
    fun _ => ok (mkResponse 200 (Some "OK") (ok (PyList (map PyDict body1)))) in
  let get2 : Get :=
    fun _ => ok (mkResponse 200 None (ok (PyList (map PyDict body2)))) in
  let names := [PyStr "a"; PyStr "a"; PyStr "b"] in
  outcome (get_public_repositories get1 "alice" [])
  = outcome (get_public_repositories get2 "bob" [EvJson])
  /\ outcome (get_public_repositories get1 "alice" []) = ok names
  /\ outcome (get_public_repositories get2 "bob" [EvJson]) = ok names
  /\ List.length names = 3
  /\ (forall n, occurrences n names = named_count n body1)
  /\ occurrences (PyStr "a") names = 2.
Proof.
  intros body1 body2 get1 get2 names.
  destruct (result_depends_on_names_only get1 get2 "alice" "bob" [] [EvJson]
              (mkResponse 200 (Some "OK") (ok (PyList (map PyDict body1))))
              (mkResponse 200 None (ok (PyList (map PyDict body2))))
              body1 body2
              eq_refl eq_refl eq_refl eq_refl eq_refl eq_refl
              ltac:(repeat constructor))
    as [Hsame Hkept].
  destruct (Hkept names ltac:(repeat constructor))
    as [Hout1 [Hout2 [Hlen Hocc]]].
  split; [exact Hsame |].
  split; [exact Hout1 |].
  split; [exact Hout2 |].
  split; [exact Hlen |].
  split; [exact Hocc | reflexivity].
Defined.

Example duplicates_are_kept :
  outcome (get_public_repositories
             (fun _ => ok (mkResponse 200 None
                             (ok (PyList [repo "a"; repo "b"; repo "a"]))))
             "testuser" [])
  = ok [PyStr "a"; PyStr "b"; PyStr "a"].
Proof. reflexivity. Qed.

(** C9: for a 200 response whose body decodes to the empty JSON object, or to
    anything else whose iteration yields nothing, [get_public_repositories]
    returns the empty list and raises nothing: the decoded value is iterated
    as it is, array or not. *)
Theorem empty_iterable_returns_empty
    (get : Get) (username : string) (t : trace) (response : Response)
    (v : value) :
  get (repos_url username) = ok response ->
  status_code response = 200%Z ->
  json response = ok v ->
  iterate v = ok [] ->
  outcome (get_public_repositories get username t) = ok [].
Proof.
  intros Hget Hstatus Hjson Hiter.
  rewrite (path_200 get username t response Hget Hstatus), Hjson.
  unfold outcome, comprehension_over. cbn. rewrite Hiter. reflexivity.
Qed.

Lemma empty_iterable_returns_empty_witness :
  outcome (get_public_repositories
             (fun _ => ok (mkResponse 200 (Some "OK") (ok (PyDict []))))
             "octocat" [])
  = ok [].
Proof.
  apply (empty_iterable_returns_empty
           (fun _ => ok (mkResponse 200 (Some "OK") (ok (PyDict []))))
           "octocat" []
           (mkResponse 200 (Some "OK") (ok (PyDict [])))
           (PyDict [])).
  - reflexivity.
  - reflexivity.
  - reflexivity.
  - reflexivity.
Defined.

(** C10: on a 200 response whose body is an array of objects each having a
    [name], a [name] that is not a string (a number, null, ...) is not
    rejected or dropped: it is the element of the returned list at the
    position of its object, and the list is as long as the array. *)
Theorem name_values_are_not_validated
    (get : Get) (username : string) (t : trace) (response : Response)
    (items : list value) (i : nat) (d : list (string * value)) (v : value) :
  get (repos_url username) = ok response ->
  status_code response = 200%Z ->
  json response = ok (PyList items) ->
  is_repo_array (PyList items) = true ->
  nth_error items i = Some (PyDict d) ->
  name_is d v ->
  is_str v = false ->
  exists names,
    outcome (get_public_repositories get username t) = ok names
    /\ nth_error names i = Some v
    /\ List.length names = List.length items.
Proof.
  intros Hget Hstatus Hjson Harr Hi Hd _.
  rewrite (path_200 get username t response Hget Hstatus), Hjson.
  unfold outcome, comprehension_over. cbn.
  destruct (comprehension_returns items Harr) as [names [Hnames Hlen]].
  exists names. split; [exact Hnames | split; [| exact Hlen]].
  eapply comprehension_nth; eauto.
Qed.

Lemma name_values_are_not_validated_witness :
  exists names,
    outcome (get_public_repositories
               (fun _ => ok (mkResponse 200 None
                               (ok (PyList [repo "a";
                                            PyDict [("name", PyInt 42)];
                                            PyDict [("name", PyNone)]]))))
               "octocat" [])
    = ok names
    /\ nth_error names 1 = Some (PyInt 42)
    /\ List.length names = 3.
Proof.
  apply (name_values_are_not_validated
           (fun _ => ok (mkResponse 200 None
                           (ok (PyList [repo "a";
                                        PyDict [("name", PyInt 42)];
                                        PyDict [("name", PyNone)]]))))
           "octocat" []
           (mkResponse 200 None
              (ok (PyList [repo "a";
                           PyDict [("name", PyInt 42)];
                           PyDict [("name", PyNone)]])))
           [repo "a"; PyDict [("name", PyInt 42)]; PyDict [("name", PyNone)]]
           1 [("name", PyInt 42)] (PyInt 42)).
  - reflexivity.
  - reflexivity.
  - reflexivity.
  - reflexivity.
  - reflexivity.
  - reflexivity.
  - reflexivity.
Defined.

Example non_string_names_pass_through :
  outcome (get_public_repositories
             (fun _ => ok (mkResponse 200 None
                             (ok (PyList [repo "a";
                                          PyDict [("name", PyInt 42)];
                                          PyDict [("name", PyNone)]]))))
             "octocat" [])
  = ok [PyStr "a"; PyInt 42; PyNone].
Proof. reflexivity. Qed.

(** * Further properties *)

(** ** The fetcher on any trace *)

(** The run of the fetcher, for whatever the client answers. *)
Lemma fetch_run (get : Get) (username : string) (t : trace) :
  get_public_repositories get username t
  = (t ++ fetch_events username (get (repos_url username)),
     match get (repos_url username) with
     | inl e => throw e
     | inr response =>
         if (status_code response =? 200)%Z
         then rbind (json response)
                    (comprehension_over (fun repo => getitem repo "name"))
         else ok []
     end).
Proof.
  unfold fetch_events.
  destruct (get (repos_url username)) as [e | response] eqn:Hget.
  - apply path_transport_failure. exact Hget.
  - destruct (Z.eqb_spec (status_code response) 200) as [Hstatus | Hstatus].
    + apply path_200; assumption.
    + apply path_not_200; assumption.
Qed.

Lemma fetch_outcome_any_trace (get : Get) (username : string) (t1 t2 : trace) :
  outcome (get_public_repositories get username t1)
  = outcome (get_public_repositories get username t2).
Proof. rewrite !fetch_run. reflexivity. Qed.

Lemma gets_app (t1 t2 : trace) : gets (t1 ++ t2) = gets t1 ++ gets t2.
Proof.
  induction t1 as [| e t1 IH]; cbn; [reflexivity |].
  destruct e; cbn; rewrite IH; reflexivity.
Qed.

Lemma gets_logs (lines : list string) : gets (map (EvLog INFO) lines) = [].
Proof. induction lines as [| l lines IH]; cbn; [reflexivity | exact IH]. Qed.

Lemma gets_fetch_events (username : string) (answer : result Response) :
  gets (fetch_events username answer) = [repos_url username].
Proof.
  destruct answer as [e | response]; cbn; [reflexivity |].
  destruct (status_code response =? 200)%Z; reflexivity.
Qed.

(** ** The paths of [main] *)

Section MainPaths.

Variable repr : value -> string.
Variable get : Get.
Variable p : process.

Lemma main_at_eof :
  stdin p = [] ->
  main repr get p
  = (mkProcess [] (console p ++ [Prompted prompt_line]) (log p), inl EOFError).
Proof.
  intros Hin. unfold main, io_bind, input. rewrite Hin. reflexivity.
Qed.

Lemma main_fetch_raises (username : string) (rest : list string)
    (t : trace) (e : exn) :
  stdin p = username :: rest ->
  get_public_repositories get username (log_entered p username) = (t, throw e) ->
  main repr get p
  = (mkProcess rest (console p ++ [Prompted prompt_line]) t, inl (Raised e)).
Proof.
  intros Hin Hfetch.
  unfold main, io_bind, input, on_log, logger_info, emit, ok. rewrite Hin.
  cbn [log stdin console].
  unfold log_entered in Hfetch. rewrite Hfetch. reflexivity.
Qed.

Lemma for_each_repo_lines (repos : list value) : forall q : process,
  for_each (fun repo =>
              io_bind (print ("- " ++ format_value repr repo)) (fun _ =>
              on_log (logger_info ("- " ++ format_value repr repo))))
           repos q
  = (mkProcess (stdin q)
       (console q ++ map Printed (map (repo_line repr) repos))
       (log q ++ map (EvLog INFO) (map (repo_line repr) repos)),
     inr tt).
Proof.
  induction repos as [| repo repos IH]; intros q; cbn [for_each map].
  - unfold io_ret. rewrite !app_nil_r. destruct q; reflexivity.
  - unfold io_bind, print, on_log, logger_info, emit, ok in IH |- *.
    cbn [log stdin console].
    rewrite IH. cbn [log stdin console].
    rewrite <- !app_assoc. reflexivity.
Qed.

Lemma main_fetch_returns (username : string) (rest : list string)
    (t : trace) (repos : list value) :
  stdin p = username :: rest ->
  get_public_repositories get username (log_entered p username) = (t, ok repos) ->
  main repr get p
  = (mkProcess rest
       (console p ++ Prompted prompt_line
                  :: map Printed (printed_lines repr username repos))
       (t ++ EvLog INFO ("Repositories retrieved: " ++ repr (PyList repos))
          :: map (EvLog INFO) (printed_lines repr username repos)),
     inr tt).
Proof.
  intros Hin Hfetch.
  pose proof (for_each_repo_lines repos) as Hloop.
  unfold main, io_bind, input, on_log, logger_info, emit, print, ok
    in Hloop |- *.
  rewrite Hin. cbn [log stdin console].
  unfold log_entered, ok in Hfetch. rewrite Hfetch.
  cbn [log stdin console].
  unfold printed_lines.
  destruct repos as [| repo repos]; cbn [truthy log stdin console].
  - cbn [map]. rewrite <- ?app_assoc. reflexivity.
  - rewrite Hloop. cbn [log stdin console].
    rewrite <- ?app_assoc. reflexivity.
Qed.

End MainPaths.

(** ** The fetcher: log records, decoding and the first bad element *)

(** The comprehension stops at the first element whose subscripting raises;
    what follows it is not looked at. *)
Lemma comprehension_first_raise (good : list (list (string * value)))
    (names : list value) (bad : value) (rest : list value) (e : exn) :
  Forall2 name_is good names ->
  getitem bad "name" = throw e ->
  comprehension (fun repo => getitem repo "name")
                (map PyDict good ++ bad :: rest)
  = throw e.
Proof.
  intros Hgood Hbad.
  induction Hgood as [| d n good names Hd _ IH]; cbn.
  - rewrite Hbad. reflexivity.
  - unfold name_is in Hd. rewrite Hd. cbn. rewrite IH. reflexivity.
Qed.

(** X1: a run of [get_public_repositories] writes one log record of level
    ERROR when the client returned a response whose status is not 200, and
    none otherwise: not when the status is 200 (even if the body then fails
    to decode) and not when the client raised. *)
Theorem error_record_only_for_other_status
    (get : Get) (username : string) (t : trace) :
  exists evs,
    final_trace (get_public_repositories get username t) = t ++ evs
    /\ errors evs = match get (repos_url username) with
                    | inl _ => 0
                    | inr response =>
                        if (status_code response =? 200)%Z then 0 else 1
                    end.
Proof.
  rewrite fetch_run. eexists. split; [reflexivity |].
  destruct (get (repos_url username)) as [e | response]; cbn; [reflexivity |].
  destruct (status_code response =? 200)%Z; reflexivity.
Qed.

(** X2: a run of [get_public_repositories] calls [json()] exactly once when
    the status is 200, whether the decoding then returns or raises, and
    never when the status is different or the client raised. *)
Theorem body_decoded_once_iff_200
    (get : Get) (username : string) (t : trace) :
  exists evs,
    final_trace (get_public_repositories get username t) = t ++ evs
    /\ decodes evs = match get (repos_url username) with
                     | inl _ => 0
                     | inr response =>
                         if (status_code response =? 200)%Z then 1 else 0
                     end.
Proof.
  rewrite fetch_run. eexists. split; [reflexivity |].
  destruct (get (repos_url username)) as [e | response]; cbn; [reflexivity |].
  destruct (status_code response =? 200)%Z; reflexivity.
Qed.

(** X3: on a 200 response, [get_public_repositories] returns a list exactly
    when the body decodes to an array of objects each having a [name], to an
    empty object or to an empty string; on every other body it raises. *)
Theorem returns_iff_body_usable
    (get : Get) (username : string) (t : trace) (response : Response) :
  get (repos_url username) = ok response ->
  status_code response = 200%Z ->
  (exists names, outcome (get_public_repositories get username t) = ok names)
  <-> (exists v, json response = ok v
                 /\ (is_repo_array v = true \/ v = PyDict [] \/ v = PyStr "")).
Proof.
  intros Hget Hstatus.
  rewrite (path_200 get username t response Hget Hstatus).
  unfold outcome. cbn [snd].
  split.
  - intros [names Hnames].
    destruct (json response) as [e | v]; cbn in Hnames; [discriminate |].
    exists v. split; [reflexivity |].
    destruct v as [| b | n | f | s | items | entries]; try discriminate.
    + destruct s; [auto | discriminate].
    + left. cbn. destruct (forallb has_name items) eqn:Hall; [reflexivity |].
      destruct (comprehension_raises items Hall) as [e He].
      unfold comprehension_over in Hnames. cbn in Hnames.
      rewrite He in Hnames. discriminate.
    + destruct entries; [auto | discriminate].
  - intros [v [-> Hv]]. cbn.
    destruct Hv as [Harr | [-> | ->]].
    + destruct v; try discriminate. cbn in Harr.
      destruct (comprehension_returns items Harr) as [names [Hnames _]].
      exists names. exact Hnames.
    + exists []. reflexivity.
    + exists []. reflexivity.
Qed.

Lemma returns_iff_body_usable_witness :
  (exists names,
     outcome (get_public_repositories mock_success "testuser" []) = ok names)
  <-> (exists v,
         ok (PyList [repo "repo1"; repo "repo2"; repo "repo3"]) = ok v
         /\ (is_repo_array v = true \/ v = PyDict [] \/ v = PyStr "")).
Proof.
  apply (returns_iff_body_usable mock_success "testuser" []
           (mkResponse 200 None
              (ok (PyList [repo "repo1"; repo "repo2"; repo "repo3"])))).
  - reflexivity.
  - reflexivity.
Defined.

(** X4: on a 200 response whose body is an array, the exception of the
    first element that cannot give a [name] is the one the caller gets,
    whatever follows that element: [KeyError] for ["name"] when the element
    is an object without that field, [TypeError] when it is not an object. *)
Theorem first_bad_element_decides
    (get : Get) (username : string) (t : trace) (response : Response)
    (good : list (list (string * value))) (names : list value)
    (bad : value) (rest : list value) :
  get (repos_url username) = ok response ->
  status_code response = 200%Z ->
  json response = ok (PyList (map PyDict good ++ bad :: rest)) ->
  Forall2 name_is good names ->
  has_name bad = false ->
  outcome (get_public_repositories get username t)
  = throw (match bad with
           | PyDict _ => KeyError "name"
           | _ => TypeError
           end).
Proof.
  intros Hget Hstatus Hjson Hgood Hbad.
  rewrite (path_200 get username t response Hget Hstatus), Hjson.
  unfold outcome, comprehension_over. cbn.
  apply (comprehension_first_raise good names); [exact Hgood |].
  destruct bad as [| b | n | f | s | items | entries]; try reflexivity.
  cbn in Hbad |- *. destruct (dict_get "name" entries); [discriminate | reflexivity].
Qed.

Lemma first_bad_element_decides_witness :
  outcome (get_public_repositories
             (fun _ => ok (mkResponse 200 (Some "OK")
                             (ok (PyList [repo "a";
                                          PyDict [("id", PyInt 7)];
                                          PyInt 3; repo "b"]))))
             "octocat" [])
  = throw (KeyError "name").
Proof.
  apply (first_bad_element_decides
           (fun _ => ok (mkResponse 200 (Some "OK")
                           (ok (PyList [repo "a";
                                        PyDict [("id", PyInt 7)];
                                        PyInt 3; repo "b"]))))
           "octocat" []
           (mkResponse 200 (Some "OK")
              (ok (PyList [repo "a"; PyDict [("id", PyInt 7)];
                           PyInt 3; repo "b"])))
           [[("name", PyStr "a")]] [PyStr "a"]
           (PyDict [("id", PyInt 7)]) [PyInt 3; repo "b"]).
  - reflexivity.
  - reflexivity.
  - reflexivity.
  - repeat constructor.
  - reflexivity.
Defined.

(** ** The command line program *)

Lemma printed_lines_not_empty (repr : value -> string) (username : string)
    (repos : list value) :
  printed_lines repr username repos <> [].
Proof.
  unfold printed_lines. destruct (truthy repos); discriminate.
Qed.

(** X5: when the user enters a username and the client answers 200 with a
    non-empty array of objects each having a [name], [main] returns and the
    console shows the prompt, the header with the username, and then one
    line per repository, a dash and the name, in the order of the array. *)
Theorem main_lists_repositories
    (repr : value -> string) (get : Get) (p : process)
    (username : string) (rest : list string) (response : Response)
    (objs : list (list (string * value))) (names : list value) :
  stdin p = username :: rest ->
  get (repos_url username) = ok response ->
  status_code response = 200%Z ->
  json response = ok (PyList (map PyDict objs)) ->
  Forall2 name_is objs names ->
  objs <> [] ->
  io_outcome (main repr get p) = inr tt
  /\ console (final (main repr get p))
     = console p
       ++ Prompted "Enter the GitHub username: "
       :: Printed ("Public repositories of " ++ username ++ ":")
       :: map (fun name => Printed ("- " ++ format_value repr name)) names.
Proof.
  intros Hin Hget Hstatus Hjson Hnames Hobjs.
  assert (Hfetch : get_public_repositories get username (log_entered p username)
                   = (log_entered p username
                        ++ fetch_events username (get (repos_url username)),
                      ok names)).
  { rewrite fetch_run. f_equal. rewrite Hget. unfold ok.
    rewrite Hstatus, Hjson. cbn.
    apply (comprehension_names objs names Hnames). }
  rewrite (main_fetch_returns repr get p username rest _ names Hin Hfetch).
  unfold io_outcome, final. cbn [fst snd console].
  split; [reflexivity |].
  unfold printed_lines.
  destruct Hnames as [| d n objs names Hd Hrest]; [congruence |].
  cbn [truthy map]. rewrite map_map. reflexivity.
Qed.

Lemma main_lists_repositories_witness :
  let repr : value -> string := fun _ => "['repo1', 'repo2', 'repo3']" in
  let p := mkProcess ["testuser"; "ignored"] [] [] in
  io_outcome (main repr mock_success p) = inr tt
  /\ console (final (main repr mock_success p))
     = [] ++ Prompted "Enter the GitHub username: "
          :: Printed ("Public repositories of " ++ "testuser" ++ ":")
          :: map (fun name => Printed ("- " ++ format_value repr name))
                 [PyStr "repo1"; PyStr "repo2"; PyStr "repo3"].
Proof.
  intros repr p.
  apply (main_lists_repositories repr mock_success p "testuser" ["ignored"]
           (mkResponse 200 None
              (ok (PyList [repo "repo1"; repo "repo2"; repo "repo3"])))
           [[("name", PyStr "repo1")]; [("name", PyStr "repo2")];
            [("name", PyStr "repo3")]]
           [PyStr "repo1"; PyStr "repo2"; PyStr "repo3"]).
  - reflexivity.
  - reflexivity.
  - reflexivity.
  - reflexivity.
  - repeat constructor.
  - discriminate.
Defined.

Example main_success_console :
  console (final (main (fun _ => "['repo1', 'repo2', 'repo3']") mock_success
                    (mkProcess ["testuser"] [] [])))
  = [Prompted "Enter the GitHub username: ";
     Printed "Public repositories of testuser:";
     Printed "- repo1"; Printed "- repo2"; Printed "- repo3"].
Proof. reflexivity. Qed.

(** X6: [main] shows the same console for a response whose status is not
    200 as for a 200 response with an empty array: the prompt and the one
    line that no repositories were found or an error occurred; so the user
    cannot tell a failed lookup from an account without repositories. *)
Theorem main_cannot_tell_failure_from_empty
    (repr : value -> string) (get1 get2 : Get) (p : process)
    (username : string) (rest : list string) (response1 response2 : Response) :
  stdin p = username :: rest ->
  get1 (repos_url username) = ok response1 ->
  status_code response1 <> 200%Z ->
  get2 (repos_url username) = ok response2 ->
  status_code response2 = 200%Z ->
  json response2 = ok (PyList []) ->
  console (final (main repr get1 p)) = console (final (main repr get2 p))
  /\ console (final (main repr get1 p))
     = console p
       ++ [Prompted "Enter the GitHub username: ";
           Printed "No public repositories found or an error occurred."]
  /\ io_outcome (main repr get1 p) = inr tt
  /\ io_outcome (main repr get2 p) = inr tt.
Proof.
  intros Hin Hget1 Hstatus1 Hget2 Hstatus2 Hjson2.
  assert (Hfetch1 : get_public_repositories get1 username (log_entered p username)
                    = (log_entered p username
                         ++ fetch_events username (get1 (repos_url username)),
                       ok [])).
  { rewrite fetch_run. f_equal. rewrite Hget1. unfold ok.
    apply Z.eqb_neq in Hstatus1. rewrite Hstatus1. reflexivity. }
  assert (Hfetch2 : get_public_repositories get2 username (log_entered p username)
                    = (log_entered p username
                         ++ fetch_events username (get2 (repos_url username)),
                       ok [])).
  { rewrite fetch_run. f_equal. rewrite Hget2. unfold ok.
    rewrite Hstatus2, Hjson2. reflexivity. }
  rewrite (main_fetch_returns repr get1 p username rest _ [] Hin Hfetch1).
  rewrite (main_fetch_returns repr get2 p username rest _ [] Hin Hfetch2).
  unfold io_outcome, final. cbn [fst snd console].
  repeat split; reflexivity.
Qed.

Lemma main_cannot_tell_failure_from_empty_witness :
  let repr : value -> string := fun _ => "[]" in
  let p := mkProcess ["nonexistentuser"] [] [] in
  console (final (main repr mock_error p))
  = console (final (main repr mock_no_repos p))
  /\ console (final (main repr mock_error p))
     = [] ++ [Prompted "Enter the GitHub username: ";
              Printed "No public repositories found or an error occurred."]
  /\ io_outcome (main repr mock_error p) = inr tt
  /\ io_outcome (main repr mock_no_repos p) = inr tt.
Proof.
  intros repr p.
  apply (main_cannot_tell_failure_from_empty repr mock_error mock_no_repos p
           "nonexistentuser" []
           (mkResponse 404 (Some "Not Found") (ok (PyDict [])))
           (mkResponse 200 None (ok (PyList [])))).
  - reflexivity.
  - reflexivity.
  - cbn. lia.
  - reflexivity.
  - reflexivity.
  - reflexivity.
Defined.

(** X7: when the HTTP client raises, [main] does not catch it either: it
    ends with that exception after the prompt, having printed no line, not
    even the one about an error. *)
Theorem main_transport_failure_prints_nothing
    (repr : value -> string) (get : Get) (p : process)
    (username : string) (rest : list string) (e : exn) :
  stdin p = username :: rest ->
  get (repos_url username) = throw e ->
  io_outcome (main repr get p) = inl (Raised e)
  /\ console (final (main repr get p))
     = console p ++ [Prompted "Enter the GitHub username: "].
Proof.
  intros Hin Hget.
  assert (Hfetch : get_public_repositories get username (log_entered p username)
                   = (log_entered p username
                        ++ fetch_events username (get (repos_url username)),
                      throw e)).
  { rewrite fetch_run. f_equal. rewrite Hget. reflexivity. }
  rewrite (main_fetch_raises repr get p username rest _ e Hin Hfetch).
  split; reflexivity.
Qed.

Lemma main_transport_failure_prints_nothing_witness :
  let repr : value -> string := fun _ => "[]" in
  let get : Get := fun _ => throw (RequestException "ConnectionError") in
  let p := mkProcess ["octocat"] [] [] in
  io_outcome (main repr get p) = inl (Raised (RequestException "ConnectionError"))
  /\ console (final (main repr get p))
     = [] ++ [Prompted "Enter the GitHub username: "].
Proof.
  intros repr get p.
  apply (main_transport_failure_prints_nothing repr get p "octocat" []
           (RequestException "ConnectionError")).
  - reflexivity.
  - reflexivity.
Defined.

(** On a body that is not usable the decoding or the comprehension raises. *)
Lemma unusable_body_comprehension (body : result value) :
  unusable_body body ->
  exists e,
    rbind body (comprehension_over (fun repo => getitem repo "name")) = throw e.
Proof.
  destruct body as [e | v]; cbn.
  - intros _. exists e. reflexivity.
  - intros [Harr [Hobj Hstr]].
    destruct v as [| b | n | f | s | items | entries];
      try (exists TypeError; reflexivity).
    + destruct s as [| c s]; [congruence |]. exists TypeError. reflexivity.
    + apply comprehension_raises. exact Harr.
    + destruct entries as [| kv entries]; [congruence |].
      exists TypeError. reflexivity.
Qed.

(** X8: when the client answers 200 with a body on which the fetcher raises
    (not JSON, or neither an array of objects with a [name] nor an empty
    object nor an empty string), [main] ends with an exception after the
    prompt and prints no line. *)
Theorem main_unusable_body_prints_nothing
    (repr : value -> string) (get : Get) (p : process)
    (username : string) (rest : list string) (response : Response) :
  stdin p = username :: rest ->
  get (repos_url username) = ok response ->
  status_code response = 200%Z ->
  unusable_body (json response) ->
  (exists e, io_outcome (main repr get p) = inl (Raised e))
  /\ console (final (main repr get p))
     = console p ++ [Prompted "Enter the GitHub username: "].
Proof.
  intros Hin Hget Hstatus Hbody.
  destruct (unusable_body_comprehension (json response) Hbody) as [e He].
  assert (Hfetch : get_public_repositories get username (log_entered p username)
                   = (log_entered p username
                        ++ fetch_events username (get (repos_url username)),
                      throw e)).
  { rewrite fetch_run. f_equal. rewrite Hget. unfold ok.
    rewrite Hstatus. cbn. exact He. }
  rewrite (main_fetch_raises repr get p username rest _ e Hin Hfetch).
  split; [exists e; reflexivity | reflexivity].
Qed.

Lemma main_unusable_body_prints_nothing_witness :
  let repr : value -> string := fun _ => "[]" in
  let get : Get :=
    fun _ => ok (mkResponse 200 (Some "OK")
                   (throw (JSONDecodeError "Expecting value"))) in
  let p := mkProcess ["octocat"] [] [] in
  (exists e, io_outcome (main repr get p) = inl (Raised e))
  /\ console (final (main repr get p))
     = [] ++ [Prompted "Enter the GitHub username: "].
Proof.
  intros repr get p.
  apply (main_unusable_body_prints_nothing repr get p "octocat" []
           (mkResponse 200 (Some "OK")
              (throw (JSONDecodeError "Expecting value")))).
  - reflexivity.
  - reflexivity.
  - reflexivity.
  - exact I.
Defined.

(** X9: at the end of the standard input [main] ends with [EOFError] right
    after the prompt: no request is sent and nothing is logged or printed. *)
Theorem main_end_of_input
    (repr : value -> string) (get : Get) (p : process) :
  stdin p = [] ->
  io_outcome (main repr get p) = inl EOFError
  /\ log (final (main repr get p)) = log p
  /\ console (final (main repr get p))
     = console p ++ [Prompted "Enter the GitHub username: "].
Proof.
  intros Hin. rewrite (main_at_eof repr get p Hin).
  repeat split; reflexivity.
Qed.

Lemma main_end_of_input_witness :
  let repr : value -> string := fun _ => "[]" in
  let p := mkProcess [] [Printed "earlier"] [EvJson] in
  io_outcome (main repr mock_success p) = inl EOFError
  /\ log (final (main repr mock_success p)) = [EvJson]
  /\ console (final (main repr mock_success p))
     = [Printed "earlier"] ++ [Prompted "Enter the GitHub username: "].
Proof.
  intros repr p.
  apply (main_end_of_input repr mock_success p).
  reflexivity.
Defined.

(** X10: when a line can be read, [main] reads exactly that one line and
    sends exactly one GET, to the URL built from the line as it was entered
    (nothing stripped or encoded), whatever the client answers or raises. *)
Theorem main_one_get_for_entered_line
    (repr : value -> string) (get : Get) (p : process)
    (username : string) (rest : list string) :
  stdin p = username :: rest ->
  stdin (final (main repr get p)) = rest
  /\ exists evs,
       log (final (main repr get p)) = log p ++ evs
       /\ gets evs
          = [("https://api.github.com/users/" ++ username ++ "/repos")%string].
Proof.
  intros Hin.
  pose proof (fetch_run get username (log_entered p username)) as Hfetch.
  destruct (match get (repos_url username) with
            | inl e => throw e
            | inr response =>
                if (status_code response =? 200)%Z
                then rbind (json response)
                           (comprehension_over (fun repo => getitem repo "name"))
                else ok []
            end) as [e | repos].
  - rewrite (main_fetch_raises repr get p username rest _ e Hin Hfetch).
    unfold final. cbn [fst stdin log]. split; [reflexivity |].
    unfold log_entered. rewrite <- app_assoc. eexists. split; [reflexivity |].
    cbn [app gets]. apply gets_fetch_events.
  - rewrite (main_fetch_returns repr get p username rest _ repos Hin Hfetch).
    unfold final. cbn [fst stdin log]. split; [reflexivity |].
    unfold log_entered. rewrite <- !app_assoc. eexists. split; [reflexivity |].
    cbn [app gets]. rewrite gets_app, gets_fetch_events.
    cbn [gets]. rewrite gets_logs. reflexivity.
Qed.

Lemma main_one_get_for_entered_line_witness :
  let repr : value -> string := fun _ => "[]" in
  let p := mkProcess [" a b/c?d "; "next"] [] [] in
  stdin (final (main repr mock_error p)) = ["next"]
  /\ exists evs,
       log (final (main repr mock_error p)) = [] ++ evs
       /\ gets evs
          = [("https://api.github.com/users/" ++ " a b/c?d " ++ "/repos")%string].
Proof.
  intros repr p.
  apply (main_one_get_for_entered_line repr mock_error p " a b/c?d " ["next"]).
  reflexivity.
Defined.

(** X11: whenever [main] returns, it has printed at least one line, and
    every line it printed is also logged at level INFO: the printed lines
    are, in the same order, the messages of the last records of the log. *)
Theorem main_prints_what_it_logs
    (repr : value -> string) (get : Get) (p : process) :
  io_outcome (main repr get p) = inr tt ->
  exists (lines : list string) (evs : trace),
    lines <> []
    /\ console (final (main repr get p))
       = console p ++ Prompted "Enter the GitHub username: " :: map Printed lines
    /\ log (final (main repr get p))
       = log p ++ evs ++ map (EvLog INFO) lines.
Proof.
  intros Hret.
  destruct (stdin p) as [| username rest] eqn:Hin.
  - rewrite (main_at_eof repr get p Hin) in Hret. discriminate Hret.
  - pose proof (fetch_run get username (log_entered p username)) as Hfetch.
    destruct (match get (repos_url username) with
              | inl e => throw e
              | inr response =>
                  if (status_code response =? 200)%Z
                  then rbind (json response)
                             (comprehension_over (fun repo => getitem repo "name"))
                  else ok []
              end) as [e | repos].
    + rewrite (main_fetch_raises repr get p username rest _ e Hin Hfetch) in Hret.
      discriminate Hret.
    + rewrite (main_fetch_returns repr get p username rest _ repos Hin Hfetch).
      unfold final. cbn [fst console log].
      exists (printed_lines repr username repos).
      exists ([EvLog INFO ("User entered GitHub username: " ++ username)]
              ++ fetch_events username (get (repos_url username))
              ++ [EvLog INFO ("Repositories retrieved: " ++ repr (PyList repos))]).
      split; [apply printed_lines_not_empty | split; [reflexivity |]].
      unfold log_entered. rewrite <- !app_assoc. reflexivity.
Qed.

Lemma main_prints_what_it_logs_witness :
  let repr : value -> string := fun _ => "['repo1', 'repo2', 'repo3']" in
  let p := mkProcess ["testuser"] [] [] in
  exists (lines : list string) (evs : trace),
    lines <> []
    /\ console (final (main repr mock_success p))
       = [] ++ Prompted "Enter the GitHub username: " :: map Printed lines
    /\ log (final (main repr mock_success p))
       = [] ++ evs ++ map (EvLog INFO) lines.
Proof.
  intros repr p.
  apply (main_prints_what_it_logs repr mock_success p).
  reflexivity.
Defined.

Lemma errors_app (t1 t2 : trace) : errors (t1 ++ t2) = errors t1 + errors t2.
Proof. unfold errors. rewrite filter_app, length_app. reflexivity. Qed.

Lemma errors_info_logs (lines : list string) :
  errors (map (EvLog INFO) lines) = 0.
Proof.
  unfold errors. induction lines as [| l lines IH]; cbn; [reflexivity | exact IH].
Qed.

Lemma errors_fetch_events (username : string) (answer : result Response) :
  errors (fetch_events username answer)
  = match answer with
    | inl _ => 0
    | inr response => if (status_code response =? 200)%Z then 0 else 1
    end.
Proof.
  destruct answer as [e | response]; cbn; [reflexivity |].
  destruct (status_code response =? 200)%Z; reflexivity.
Qed.

(** X12: [main] itself logs at level INFO only: when a line was read, the
    records of level ERROR of the whole run are the one record of the
    fetcher for a status that is not 200, and there is none when the status
    is 200 or the client raised, also when [main] then ends with an
    exception. *)
Theorem main_error_record_only_for_other_status
    (repr : value -> string) (get : Get) (p : process)
    (username : string) (rest : list string) :
  stdin p = username :: rest ->
  exists evs,
    log (final (main repr get p)) = log p ++ evs
    /\ errors evs = match get (repos_url username) with
                    | inl _ => 0
                    | inr response =>
                        if (status_code response =? 200)%Z then 0 else 1
                    end.
Proof.
  intros Hin.
  pose proof (fetch_run get username (log_entered p username)) as Hfetch.
  rewrite <- (errors_fetch_events username (get (repos_url username))).
  destruct (match get (repos_url username) with
            | inl e => throw e
            | inr response =>
                if (status_code response =? 200)%Z
                then rbind (json response)
                           (comprehension_over (fun repo => getitem repo "name"))
                else ok []
            end) as [e | repos].
  - rewrite (main_fetch_raises repr get p username rest _ e Hin Hfetch).
    unfold final. cbn [fst log].
    unfold log_entered. rewrite <- app_assoc. eexists. split; [reflexivity |].
    rewrite errors_app. reflexivity.
  - rewrite (main_fetch_returns repr get p username rest _ repos Hin Hfetch).
    unfold final. cbn [fst log].
    unfold log_entered. rewrite <- !app_assoc. eexists. split; [reflexivity |].
    rewrite !errors_app.
    change (EvLog INFO ("Repositories retrieved: " ++ repr (PyList repos))
            :: map (EvLog INFO) (printed_lines repr username repos))
      with (map (EvLog INFO)
              (("Repositories retrieved: " ++ repr (PyList repos))%string
               :: printed_lines repr username repos)).
    rewrite errors_info_logs. cbn. lia.
Qed.

Lemma main_error_record_only_for_other_status_witness :
  let repr : value -> string := fun _ => "[]" in
  let p := mkProcess ["nonexistentuser"] [] [] in
  exists evs,
    log (final (main repr mock_error p)) = [] ++ evs
    /\ errors evs = 1.
Proof.
  intros repr p.
  apply (main_error_record_only_for_other_status repr mock_error p
           "nonexistentuser" []).
  reflexivity.
Defined.
